(** * cudf [DatetimeColumn]: a shallow embedding of
      [python/cudf/dataframe/datetime.py]

    The column is modelled as a record over lists; the operations of the
    class run in a small monad that carries Python exceptions and a log of
    the device allocations and compute-engine calls they make.  The compute
    engine (the [cudf.bindings] modules and [cudf._sort]) is a parameter of
    the development. *)

From stdpp Require Import gmap strings list.
From Stdlib Require Import ZArith QArith Qround Lia.

Local Open Scope string_scope.
Local Open Scope Z_scope.
Local Open Scope list_scope.

(** ** Exceptions, the event log and the monad *)

Inductive exn : Type :=
  | TypeError (msg : string)
  | ValueError (msg : string)
  | KeyError (key : string)
  | AssertionError
  | EngineError (msg : string).

Inductive dtype : Type :=
  | datetime64_ms
  | int64
  | int32
  | int16
  | bool_.

Global Instance dtype_eq_dec : EqDecision dtype.
Proof. solve_decision. Defined.

(** What an operation does besides computing its result: device buffers it
    allocates and calls that leave this layer for the compute engine. *)
Inductive event : Type :=
  | Allocate (n : nat) (dt : dtype)
  | EngineCall (fn : string) (arg : string).

Definition is_engine_call (e : event) : bool :=
  match e with EngineCall _ _ => true | Allocate _ _ => false end.

Definition M (A : Type) : Type := (list event * (exn + A))%type.

Definition trace {A} (m : M A) : list event := fst m.
Definition result {A} (m : M A) : exn + A := snd m.

Definition raise {A} (e : exn) : M A := ([], inl e).
Definition emit (e : event) : M unit := ([e], inr tt).

Global Instance M_ret : MRet M := λ A a, ([], inr a).
Global Instance M_bind : MBind M := λ A B f m,
  match snd m with
  | inl e => (fst m, inl e)
  | inr a => (fst m ++ fst (f a), snd (f a))
  end.

(** A call into the compute engine: logged, then its outcome. *)
Definition engine_call {A} (fn arg : string) (r : exn + A) : M A :=
  ([EngineCall fn arg], r).

(** Python's [assert]. *)
Definition assert (b : bool) : M unit :=
  if b then mret tt else raise AssertionError.

(** ** Buffers and the column core *)

(** A device buffer: its elements, as integers, and the element type it is
    tagged with ([cudf.dataframe.buffer.Buffer]). *)
Record Buffer : Type := mkBuffer { mem : list Z; buf_dtype : dtype }.

(** A validity bitmap, one bit per element; [false] marks a null. *)
Definition Mask : Type := list bool.

Record Column : Type := mkColumn {
  data : Buffer;
  mask : option Mask;
  null_count : Z;
  col_dtype : dtype
}.

Definition len (self : Column) : nat := length (mem (data self)).

Definition has_null_mask (self : Column) : bool :=
  match mask self with Some _ => true | None => false end.

Fixpoint count_unset (m : Mask) : Z :=
  match m with
  | [] => 0
  | b :: m' => (if b then 0 else 1) + count_unset m'
  end.

(** Invariants 1 and 2 of the data model: a mask has one bit per element,
    and the cached null count is the number of unset bits (0 without a
    mask). *)
Definition invariants_hold (d : Buffer) (m : option Mask) (nc : Z) : bool :=
  match m with
  | None => bool_decide (nc = 0)
  | Some bits =>
      bool_decide (length bits = length (mem d))
      && bool_decide (nc = count_unset bits)
  end.

Definition valid_column (c : Column) : Prop :=
  invariants_hold (data c) (mask c) (null_count c) = true.

(** Modelled from the spec: the constructor of the base class
    [columnops.TypedColumnBase], which is not among the sources.  An omitted
    [null_count] is computed from the mask, an omitted [dtype] is the
    buffer's, and a violation of the invariants is a construction error. *)
Definition Column_init (d : Buffer) (m : option Mask)
    (nc : option Z) (dt : option dtype) : M Column :=
  let nc := default (from_option count_unset 0 m) nc in
  if invariants_hold d m nc
  then mret (mkColumn d m nc (default (buf_dtype d) dt))
  else raise (ValueError "column invariants violated").

(** The keyword arguments of [replace]: a field that is not named is
    [None]; [mask=None] is [Some None]. *)
Record kwargs : Type := mkKwargs {
  kw_data : option Buffer;
  kw_mask : option (option Mask);
  kw_null_count : option Z;
  kw_dtype : option dtype
}.

(** Modelled from the spec: [replace] of the base class, which is not among
    the sources.  The named fields are substituted and the others taken from
    the receiver, a new column is constructed and the invariants checked
    again; when the mask is substituted and no null count is given, the
    null count is computed from the new mask. *)
Definition replace (self : Column) (kw : kwargs) : M Column :=
  Column_init
    (default (data self) (kw_data kw))
    (default (mask self) (kw_mask kw))
    (match kw_null_count kw, kw_mask kw with
     | Some n, _ => Some n
     | None, Some _ => None
     | None, None => Some (null_count self)
     end)
    (Some (default (col_dtype self) (kw_dtype kw))).

(** Modelled from the spec: [copy] of the base class (a new column over
    fresh buffers with the same contents) and [_mimic_inplace], which either
    returns the result or overwrites the receiver with it and returns
    nothing.  The first component is the receiver after the call. *)
Definition copy (self : Column) : M Column :=
  _ ← emit (Allocate (len self) (buf_dtype (data self)));
  mret self.

Definition _mimic_inplace (self result : Column) (inplace : bool)
    : M (Column * option Column) :=
  if inplace then mret (result, None) else mret (self, Some result).

(** ** Host scalars and their coercion *)

Definition _npdatetime64_dtype : dtype := datetime64_ms.

(** The attributes set by [__init__]. *)
Definition _precision : Q := 1 # 1000.
Definition _inverse_precision : Q := 1000 # 1.
Definition _pandas_conversion_factor : Q := (1000000000 # 1) * _precision.

Inductive time_unit : Type :=
  | unit_W | unit_D | unit_h | unit_m | unit_s | unit_ms | unit_us | unit_ns.

(** The values [normalize_binop_value] can be handed.  [PyDatetime] is a
    naive [datetime.datetime] (microseconds since the epoch),
    [PdTimestamp] a [pandas.Timestamp] with its [value] in nanoseconds,
    [NpDatetime64] a [numpy.datetime64] of a linear unit, and [PyOther] a
    value of any other type, with the text [type] prints for it. *)
Inductive py_value : Type :=
  | PyDatetime (us : Z)
  | PdTimestamp (value : Z)
  | NpDatetime64 (u : time_unit) (v : Z)
  | PyOther (type_repr : string).

Definition type_repr_of (other : py_value) : string :=
  match other with
  | PyDatetime _ => "<class 'datetime.datetime'>"
  | PdTimestamp _ => "<class 'pandas._libs.tslibs.timestamps.Timestamp'>"
  | NpDatetime64 _ _ => "<class 'numpy.datetime64'>"
  | PyOther s => s
  end.

(** [isinstance(other, dt.datetime)]: [pandas.Timestamp] is a subclass of
    [datetime.datetime], so the test holds of it too. *)
Definition isinstance_datetime (other : py_value) : bool :=
  match other with
  | PyDatetime _ | PdTimestamp _ => true
  | _ => false
  end.

Definition isinstance_Timestamp (other : py_value) : bool :=
  match other with PdTimestamp _ => true | _ => false end.

Definition isinstance_datetime64 (other : py_value) : bool :=
  match other with NpDatetime64 _ _ => true | _ => false end.

(** [np.datetime64(other)] on a date/time object reads its fields down to
    the microsecond: the result has unit [us], and the nanoseconds of a
    [pandas.Timestamp] are dropped. *)
Definition np_datetime64 (other : py_value) : py_value :=
  match other with
  | PyDatetime us => NpDatetime64 unit_us us
  | PdTimestamp value => NpDatetime64 unit_us (value `div` 1000)
  | _ => other
  end.

Definition NaT : Z := - 2 ^ 63.

Definition wrap64 (z : Z) : Z := (z + 2 ^ 63) `mod` 2 ^ 64 - 2 ^ 63.

(** Milliseconds per tick of a unit, as a fraction. *)
Definition ms_per_tick (u : time_unit) : Z * Z :=
  match u with
  | unit_W => (604800000, 1)
  | unit_D => (86400000, 1)
  | unit_h => (3600000, 1)
  | unit_m => (60000, 1)
  | unit_s => (1000, 1)
  | unit_ms => (1, 1)
  | unit_us => (1, 1000)
  | unit_ns => (1, 1000000)
  end.

(** [other.astype('datetime64[ms]')]: NaT stays NaT, a coarser unit is
    multiplied up, a finer one divided with rounding towards minus
    infinity. *)
Definition astype_ms (u : time_unit) (v : Z) : Z :=
  if bool_decide (v = NaT) then NaT
  else wrap64 ((v * (ms_per_tick u).1) `div` (ms_per_tick u).2).

(** Modelled from the spec: [utils.scalar_broadcast_to], which is not among
    the sources: a new buffer of the given length, every entry the scalar. *)
Definition scalar_broadcast_to (scalar : Z) (shape : nat) (dt : dtype)
    : M Buffer :=
  _ ← emit (Allocate shape dt);
  mret (mkBuffer (replicate shape scalar) dt).

Definition normalize_binop_value (self : Column) (other : py_value)
    : M Column :=
  let other :=
    if isinstance_datetime other then np_datetime64 other else other in
  ary ← match other with
        | PdTimestamp value =>
            scalar_broadcast_to
              (Qfloor (inject_Z value * _pandas_conversion_factor))
              (len self) _npdatetime64_dtype
        | NpDatetime64 u v =>
            let other := astype_ms u v in
            scalar_broadcast_to other (len self) _npdatetime64_dtype
        | _ => raise (TypeError ("cannot broadcast " +:+ type_repr_of other))
        end;
  let buf := ary in
  replace self
    (mkKwargs (Some buf) None None (Some (col_dtype self))).

(** ** The compute engine *)

(** The calls this file makes into [cudf.bindings] and [cudf._sort].  The
    kernels write into a column allocated by the caller; a call is modelled
    by what it writes and returns, or by the exception it raises.
    - [apply_dt_extract_op incol outcol field]: the values written to
      [outcol]'s data;
    - [apply_op lhs rhs out op]: the values and validity bits written to
      [out], and the null count returned;
    - [replace_nulls col fill]: the values written back to [col]'s data;
    - [get_sorted_inds col ascending na_position]: the index column. *)
Class ComputeEngine : Type := {
  apply_dt_extract_op : Column → Column → string → exn + list Z;
  apply_op : Column → Column → Column → string → exn + (list Z * Mask * Z);
  replace_nulls : Column → Column → exn + list Z;
  get_sorted_inds : Column → bool → string → exn + Column
}.

(** Writing [new] into a buffer that holds [buf]: the buffer keeps its
    length. *)
Definition store {A} (buf new : list A) : list A :=
  take (length buf) new ++ drop (length new) buf.

(** The column object after a kernel wrote into its buffers; no field of
    the object is touched. *)
Definition written (out : Column) (vals : list Z) (bits : Mask) : Column :=
  mkColumn
    (mkBuffer (store (mem (data out)) vals) (buf_dtype (data out)))
    ((λ m, store m bits) <$> mask out)
    (null_count out) (col_dtype out).

Definition written_data (out : Column) (vals : list Z) : Column :=
  mkColumn
    (mkBuffer (store (mem (data out)) vals) (buf_dtype (data out)))
    (mask out) (null_count out) (col_dtype out).

Definition nullmask (self : Column) : M Mask :=
  match mask self with
  | Some m => mret m
  | None => raise (ValueError "Column has no null mask")
  end.

(** Modelled from the spec: [columnops.column_empty_like_same_mask], which
    is not among the sources: a new column of the same length and the given
    element type that carries the source's mask. *)
Definition column_empty_like_same_mask (column : Column) (dt : dtype)
    : M Column :=
  _ ← emit (Allocate (len column) dt);
  Column_init (mkBuffer (replicate (len column) 0) dt) (mask column)
    None None.

(** Modelled from the spec: [columnops.column_empty_like], which is not
    among the sources: a new column of the same length and the given
    element type, with a mask of its own (no bit set yet) when [masked]. *)
Definition column_empty_like (column : Column) (dt : dtype) (masked : bool)
    : M Column :=
  _ ← emit (Allocate (len column) dt);
  Column_init (mkBuffer (replicate (len column) 0) dt)
    (if masked then Some (replicate (len column) false) else None)
    None None.

Section WithEngine.

Context {E : ComputeEngine}.

Definition get_dt_field (self : Column) (field : string) : M Column :=
  out ← column_empty_like_same_mask self int16;
  vals ← engine_call "apply_dt_extract_op" field
           (apply_dt_extract_op self out field);
  mret (written_data out vals).

Definition year (self : Column) : M Column := get_dt_field self "year".
Definition month (self : Column) : M Column := get_dt_field self "month".
Definition day (self : Column) : M Column := get_dt_field self "day".
Definition hour (self : Column) : M Column := get_dt_field self "hour".
Definition minute (self : Column) : M Column := get_dt_field self "minute".
Definition second (self : Column) : M Column := get_dt_field self "second".

(** The profiling markers around the body are advisory and leave no trace
    in the model. *)
Definition binop (lhs rhs : Column) (op : string) (out_dtype : dtype)
    : M Column :=
  let masked := has_null_mask lhs || has_null_mask rhs in
  out ← column_empty_like lhs out_dtype masked;
  '(vals, bits, null_count) ←
    engine_call "apply_op" op (apply_op lhs rhs out op);
  let out := written out vals bits in
  out ← replace out (mkKwargs None None (Some null_count) None);
  mret out.

Definition unordered_compare (self : Column) (cmpop : string) (rhs : Column)
    : M Column :=
  let '(lhs, rhs) := (self, rhs) in
  binop lhs rhs cmpop bool_.

Definition ordered_compare (self : Column) (cmpop : string) (rhs : Column)
    : M Column :=
  let '(lhs, rhs) := (self, rhs) in
  binop lhs rhs cmpop bool_.

End WithEngine.

(** ** Export to the Arrow array format *)

(** The eight bytes of a 64-bit integer, least significant first. *)
Definition int64_bytes (v : Z) : list Z :=
  (λ k : nat, Z.land (Z.shiftr v (8 * Z.of_nat k)) 255) <$> seq 0 8.

(** The integer eight bytes hold, read as a signed 64-bit value. *)
Definition int64_of_bytes (bs : list Z) : Z :=
  wrap64 (foldr (λ b acc, b + 256 * acc) 0 bs).

Fixpoint chunks8 (fuel : nat) (bs : list Z) : list (list Z) :=
  match fuel with
  | O => []
  | S fuel' => take 8 bs :: chunks8 fuel' (drop 8 bs)
  end.

Definition decode_int64s (bs : list Z) : list Z :=
  int64_of_bytes <$> chunks8 (length bs / 8)%nat bs.

(** A host buffer handed to Arrow ([pa.py_buffer]): the bits of a validity
    bitmap, or raw bytes. *)
Inductive pa_buffer : Type :=
  | pa_bitmap (bits : Mask)
  | pa_bytes (bytes : list Z).

Inductive pa_type : Type :=
  | pa_timestamp_ms
  | pa_int64
  | pa_int32
  | pa_int16
  | pa_bool.

Record pa_Array : Type := mkArray {
  pa_ty : pa_type;
  pa_length : nat;
  pa_buffers : list (option pa_buffer);
  pa_null_count : Z
}.

(** Modelled from the spec: [np_to_pa_dtype] of [cudf.bindings.cudf_cpp],
    which is not among the sources; the millisecond timestamp maps to the
    format's millisecond timestamp. *)
Definition np_to_pa_dtype (dt : dtype) : pa_type :=
  match dt with
  | datetime64_ms => pa_timestamp_ms
  | int64 => pa_int64
  | int32 => pa_int32
  | int16 => pa_int16
  | bool_ => pa_bool
  end.

(** [mem.copy_to_host().view('int64')]: the elements as they are, and the
    bytes [pa.py_buffer] exposes of them. *)
Definition copy_to_host {A} (m : list A) : list A := m.

Definition view_int64_bytes (host : list Z) : list Z :=
  host ≫= int64_bytes.

Definition to_arrow (self : Column) : M pa_Array :=
  mask ← (if has_null_mask self
          then m ← nullmask self; mret (Some (pa_bitmap (copy_to_host m)))
          else mret None);
  let data := pa_bytes (view_int64_bytes (copy_to_host (mem (data self)))) in
  let pa_dtype := np_to_pa_dtype (col_dtype self) in
  mret (mkArray pa_dtype (len self) [mask; Some data] (null_count self)).

(** ** Null filling *)

(** A fill value: a scalar (with the millisecond tick
    [np.datetime64(fill_value, 'ms')] gives it), an array-like of a
    date/time type, or any other array-like. *)
Inductive fill_value : Type :=
  | FillScalar (tick : Z)
  | FillDatetimeLike (ticks : list Z)
  | FillArray (ticks : list Z).

Definition fill_ticks (fv : fill_value) : list Z :=
  match fv with
  | FillScalar tick => [tick]
  | FillDatetimeLike ticks => ticks
  | FillArray ticks => ticks
  end.

(** Modelled from the spec: [columnops.as_column] with [nan_as_null=False],
    which is not among the sources: a column over the fill values, with no
    null entries of its own. *)
Definition as_column (fv : fill_value) : M Column :=
  _ ← emit (Allocate (length (fill_ticks fv)) datetime64_ms);
  Column_init (mkBuffer (fill_ticks fv) datetime64_ms) None None None.

(** Modelled from the spec: [cudautils.gather] and the [take] of the mask
    column, which are not among the sources: element [i] of the output is
    the element of the input at position [index[i]].  A position outside
    the input reads as 0 (a null bit for a mask). *)
Definition gather (d : list Z) (index : list Z) : list Z :=
  (λ i, default 0 (d !! Z.to_nat i)) <$> index.

Definition mask_take (m : Mask) (index : list Z) : Mask :=
  (λ i, default false (m !! Z.to_nat i)) <$> index.

Section WithEngineMutators.

Context {E : ComputeEngine}.

(** The first component of the result is the receiver after the call.  The
    conversions of the fill value ([np.datetime64(fill_value, 'ms')] for a
    scalar, [pd.to_datetime] for a date/time array-like) are the ticks a
    [fill_value] carries. *)
Definition fillna (self : Column) (fv : fill_value) (inplace : bool)
    : M (Column * option Column) :=
  result ← copy self;
  fill_value_col ← as_column fv;
  vals ← engine_call "replace_nulls" ""
           (replace_nulls result fill_value_col);
  let result := written_data result vals in
  result ← replace result (mkKwargs None (Some None) None None);
  _mimic_inplace self result inplace.

(** [if self.mask:] is read as the specification states the step: the mask
    is gathered whenever there is one. *)
Definition sort_by_values (self : Column) (ascending : bool)
    (na_position : string) : M (Column * Column) :=
  sort_inds ← engine_call "get_sorted_inds" na_position
                (get_sorted_inds self ascending na_position);
  _ ← emit (Allocate (len sort_inds) (buf_dtype (data self)));
  let col_keys := gather (mem (data self)) (mem (data sort_inds)) in
  let new_mask :=
    match mask self with
    | Some m => Some (mask_take m (mem (data sort_inds)))
    | None => None
    end in
  col_keys ← replace self
    (mkKwargs (Some (mkBuffer col_keys (buf_dtype (data self))))
       (Some new_mask) (Some (null_count self)) (Some (col_dtype self)));
  col_inds ← replace self
    (mkKwargs (Some (data sort_inds)) (Some (mask sort_inds)) None
       (Some (buf_dtype (data sort_inds))));
  mret (col_keys, col_inds).

End WithEngineMutators.

(** ** Serialization *)

(** A frame: the raw contents of a data buffer or of a mask, or a frame
    the serializer made of something else. *)
Inductive frame : Type :=
  | FrameData (b : Buffer)
  | FrameMask (m : Mask)
  | FrameRaw (payload : list Z).

(** The [serialize] and [deserialize] callables the framework passes in, at
    the one type this class uses them at. *)
Class Serializer : Type := {
  sheader : Type;
  serialize_dtype : dtype → sheader * list frame;
  deserialize_dtype : sheader → list frame → exn + dtype
}.

(** The values of a header. *)
Inductive hval `{Serializer} : Type :=
  | HInt (z : Z)
  | HSerialized (h : sheader) (frames : list frame).

Section Serialization.

Context {Ser : Serializer}.

(** Modelled from the spec: [serialize] and [_deserialize_data_mask] of the
    base class, which are not among the sources.  The header records the
    null count; the frames are the contents of the data buffer and, when
    there is one, of the mask, in this order. *)
Definition base_serialize (self : Column)
    : M (gmap string hval * list frame) :=
  mret ({[ "null_count" := HInt (null_count self) ]},
        FrameData (data self)
          :: match mask self with Some m => [FrameMask m] | None => [] end).

Definition _deserialize_data_mask (header : gmap string hval)
    (frames : list frame) : M (Buffer * option Mask) :=
  match frames with
  | [FrameData d] => mret (d, None)
  | [FrameData d; FrameMask m] => mret (d, Some m)
  | _ => raise (ValueError "unexpected frames")
  end.

Definition header_int (header : gmap string hval) (key : string) : M Z :=
  match header !! key with
  | Some (HInt z) => mret z
  | Some _ => raise (TypeError key)
  | None => raise (KeyError key)
  end.

Definition header_serialized (header : gmap string hval) (key : string)
    : M (sheader * list frame) :=
  match header !! key with
  | Some (HSerialized h fs) => mret (h, fs)
  | Some _ => raise (TypeError key)
  | None => raise (KeyError key)
  end.

Definition lift_exn {A} (r : exn + A) : M A := ([], r).

Definition serialize (self : Column) : M (gmap string hval * list frame) :=
  '(header, frames) ← base_serialize self;
  _ ← assert (bool_decide (header !! "dtype" = None));
  let header :=
    <[ "dtype" := HSerialized (serialize_dtype (col_dtype self)).1
                              (serialize_dtype (col_dtype self)).2 ]> header in
  mret (header, frames).

Definition deserialize (header : gmap string hval) (frames : list frame)
    : M Column :=
  '(data, mask) ← _deserialize_data_mask header frames;
  nc ← header_int header "null_count";
  '(h, fs) ← header_serialized header "dtype";
  dt ← lift_exn (deserialize_dtype h fs);
  col ← Column_init data mask (Some nc) (Some dt);
  mret col.

(** The header and the frames [serialize] produces. *)
Definition serialized_header (self : Column) : gmap string hval :=
  <[ "dtype" := HSerialized (serialize_dtype (col_dtype self)).1
                            (serialize_dtype (col_dtype self)).2 ]>
    {[ "null_count" := HInt (null_count self) ]}.

Definition serialized_frames (self : Column) : list frame :=
  FrameData (data self)
    :: match mask self with Some m => [FrameMask m] | None => [] end.

End Serialization.

(** ** The contracts of the collaborators, and an engine to run examples *)

Definition supported_fields : list string :=
  ["year"; "month"; "day"; "hour"; "minute"; "second"].

(** Whether entry [i] of a column is a value (not a null). *)
Definition is_valid_at (c : Column) (i : nat) : Prop :=
  match mask c with
  | Some m => m !! i = Some true
  | None => (i < len c)%nat
  end.

(** The engine computes every supported field. *)
Definition extracts_supported_fields `{ComputeEngine} : Prop :=
  ∀ incol outcol field, field ∈ supported_fields →
    ∃ vals, apply_dt_extract_op incol outcol field = inr vals.

(** The engine's null replacement writes back the entries that are values
    as they were. *)
Definition replace_nulls_keeps_values `{ComputeEngine} : Prop :=
  ∀ col fill vals i, replace_nulls col fill = inr vals →
    is_valid_at col i → vals !! i = mem (data col) !! i.

(** The serializer reads back what it wrote. *)
Definition serializer_round_trip `{Serializer} : Prop :=
  ∀ dt, deserialize_dtype (serialize_dtype dt).1 (serialize_dtype dt).2
        = inr dt.

(** The column obtained by gathering a column through an index column. *)
Definition gather_column (c inds : Column) : M Column :=
  Column_init
    (mkBuffer (gather (mem (data c)) (mem (data inds))) (buf_dtype (data c)))
    ((λ m, mask_take m (mem (data inds))) <$> mask c)
    None (Some (col_dtype c)).

Definition accepted_type (other : py_value) : bool :=
  isinstance_datetime other || isinstance_Timestamp other
  || isinstance_datetime64 other.


(** The millisecond tick an accepted scalar is coerced to. *)
Definition coerced_tick (other : py_value) : Z :=
  match np_datetime64 other with
  | NpDatetime64 u v => astype_ms u v
  | _ => 0
  end.

(** The columns [column_empty_like_same_mask] and [column_empty_like]
    return. *)
Definition allocated_same_mask (c : Column) (dt : dtype) : Column :=
  mkColumn (mkBuffer (replicate (len c) 0) dt) (mask c)
    (from_option count_unset 0 (mask c)) dt.

Definition allocated_like (c : Column) (dt : dtype) (masked : bool)
    : Column :=
  mkColumn (mkBuffer (replicate (len c) 0) dt)
    (if masked then Some (replicate (len c) false) else None)
    (if masked then Z.of_nat (len c) else 0) dt.

Definition no_engine_call (t : list event) : bool :=
  forallb (λ e, negb (is_engine_call e)) t.

(** The column [as_column] makes of a fill value. *)
Definition fill_column (fv : fill_value) : Column :=
  mkColumn (mkBuffer (fill_ticks fv) datetime64_ms) None 0 datetime64_ms.

(** The civil date of a day number (days since 1970-01-01). *)
Definition civil_from_days (days : Z) : Z * Z * Z :=
  let z := days + 719468 in
  let era := z `div` 146097 in
  let doe := z - era * 146097 in
  let yoe :=
    (doe - doe `div` 1460 + doe `div` 36524 - doe `div` 146096) `div` 365 in
  let doy := doe - (365 * yoe + yoe `div` 4 - yoe `div` 100) in
  let mp := (5 * doy + 2) `div` 153 in
  let d := doy - (153 * mp + 2) `div` 5 + 1 in
  let m := if bool_decide (mp < 10) then mp + 3 else mp - 9 in
  let y := yoe + era * 400 + (if bool_decide (m ≤ 2) then 1 else 0) in
  (y, m, d).

Definition field_of_tick (field : string) (t : Z) : Z :=
  let '(y, m, d) := civil_from_days (t `div` 86400000) in
  if bool_decide (field = "year") then y
  else if bool_decide (field = "month") then m
  else if bool_decide (field = "day") then d
  else if bool_decide (field = "hour") then (t `div` 3600000) `mod` 24
  else if bool_decide (field = "minute") then (t `div` 60000) `mod` 60
  else (t `div` 1000) `mod` 60.

Definition validity (c : Column) : Mask :=
  default (replicate (len c) true) (mask c).

Definition compare_ticks (op : string) : option (Z → Z → bool) :=
  if bool_decide (op = "eq") then Some Z.eqb
  else if bool_decide (op = "ne") then Some (λ a b, negb (Z.eqb a b))
  else if bool_decide (op = "lt") then Some Z.ltb
  else if bool_decide (op = "le") then Some Z.leb
  else if bool_decide (op = "gt") then Some Z.gtb
  else if bool_decide (op = "ge") then Some Z.geb
  else None.

(** Insertion of an index into a list of indices sorted by key; an index
    with an equal key stays in front, which makes the sort stable. *)
Fixpoint insert_by_key (le : Z → Z → bool) (key : nat → Z) (i : nat)
    (sorted : list nat) : list nat :=
  match sorted with
  | [] => [i]
  | j :: rest =>
      if le (key j) (key i) then j :: insert_by_key le key i rest
      else i :: j :: rest
  end.

Definition sorted_indices (c : Column) (ascending : bool) (na_last : bool)
    : list nat :=
  let key i := default 0 (mem (data c) !! i) in
  let is_value i := default false (validity c !! i) in
  let all := seq 0 (len c) in
  let values := filter (λ i, is_value i = true) all in
  let nulls := filter (λ i, is_value i = false) all in
  let le := if ascending then Z.leb else Z.geb in
  let sorted := foldl (λ acc i, insert_by_key le key i acc) [] values in
  if na_last then sorted ++ nulls else nulls ++ sorted.

Definition sample_engine : ComputeEngine := {|
  apply_dt_extract_op incol outcol field :=
    if bool_decide (field ∈ supported_fields)
    then inr (field_of_tick field <$> mem (data incol))
    else inl (KeyError field);
  apply_op lhs rhs out op :=
    match compare_ticks op with
    | Some cmp =>
        let vals :=
          zip_with (λ a b, if cmp a b then 1 else 0)
            (mem (data lhs)) (mem (data rhs)) in
        let bits := zip_with andb (validity lhs) (validity rhs) in
        inr (vals, bits, count_unset bits)
    | None => inl (KeyError op)
    end;
  replace_nulls col fill :=
    let at_ i :=
      if bool_decide (len fill = 1%nat) then mem (data fill) !! 0%nat
      else mem (data fill) !! i in
    inr (imap (λ i x,
                 if default false (validity col !! i) then x
                 else default x (at_ i))
           (mem (data col)));
  get_sorted_inds col ascending na_position :=
    if bool_decide (na_position = "last") then
      inr (mkColumn
             (mkBuffer (Z.of_nat <$> sorted_indices col ascending true) int32)
             None 0 int32)
    else if bool_decide (na_position = "first") then
      inr (mkColumn
             (mkBuffer (Z.of_nat <$> sorted_indices col ascending false) int32)
             None 0 int32)
    else inl (ValueError "invalid na_position")
|}.

Definition dtype_name (dt : dtype) : string :=
  match dt with
  | datetime64_ms => "<M8[ms]"
  | int64 => "<i8"
  | int32 => "<i4"
  | int16 => "<i2"
  | bool_ => "|b1"
  end.

Definition sample_serializer : Serializer := {|
  sheader := string;
  serialize_dtype dt := (dtype_name dt, []);
  deserialize_dtype h fs :=
    if bool_decide (h = "<M8[ms]") then inr datetime64_ms
    else if bool_decide (h = "<i8") then inr int64
    else if bool_decide (h = "<i4") then inr int32
    else if bool_decide (h = "<i2") then inr int16
    else if bool_decide (h = "|b1") then inr bool_
    else inl (TypeError h)
|}.

(** The column [2020-01-01, null, 2019-06-15] of the sort scenario. *)
Definition scenario_column : Column :=
  mkColumn (mkBuffer [1577836800000; 0; 1560556800000] datetime64_ms)
    (Some [true; false; true]) 1 datetime64_ms.

(** ** Construction from a host array, and the default null value *)

(** A host array handed to [from_numpy]: a [datetime64] array of a linear
    unit, or an array of 64-bit integers. *)
Inductive np_array : Type :=
  | DatetimeArray (u : time_unit) (elems : list Z)
  | Int64Array (elems : list Z).

(** [array.astype('datetime64[ms]')]: the elements of a [datetime64] array
    are converted one by one; 64-bit integers are read as ticks. *)
Definition array_astype_ms (array : np_array) : list Z :=
  match array with
  | DatetimeArray u elems => astype_ms u <$> elems
  | Int64Array elems => elems
  end.

Definition itemsize (dt : dtype) : Z :=
  match dt with
  | datetime64_ms => 8
  | int64 => 8
  | int32 => 4
  | int16 => 2
  | bool_ => 1
  end.

(** [Buffer(array)] moves the host array to the device. *)
Definition from_numpy (array : np_array) : M Column :=
  let array := array_astype_ms array in
  _ ← assert (bool_decide (itemsize _npdatetime64_dtype = 8));
  _ ← emit (Allocate (length array) _npdatetime64_dtype);
  let buf := mkBuffer array _npdatetime64_dtype in
  Column_init buf None None (Some (buf_dtype buf)).

(** [dtype.kind] and [str(dtype)]. *)
Definition dtype_kind (dt : dtype) : string :=
  match dt with
  | datetime64_ms => "M"
  | int64 | int32 | int16 => "i"
  | bool_ => "b"
  end.

Definition dtype_str (dt : dtype) : string :=
  match dt with
  | datetime64_ms => "datetime64[ms]"
  | int64 => "int64"
  | int32 => "int32"
  | int16 => "int16"
  | bool_ => "bool"
  end.

Definition default_na_value (self : Column) : M py_value :=
  let dkind := dtype_kind (col_dtype self) in
  if bool_decide (dkind = "M") then mret (NpDatetime64 unit_ms NaT)
  else raise (TypeError ("datetime column of "
                         +:+ dtype_str (col_dtype self)
                         +:+ " has no NaN value")).

(** A 64-bit integer. *)
Definition is_int64 (v : Z) : Prop := - 2 ^ 63 ≤ v < 2 ^ 63.

(** The microseconds from the epoch of the instants a [datetime.datetime]
    can hold, from [datetime.min] to [datetime.max]. *)
Definition is_datetime_us (us : Z) : Prop :=
  -62135596800000000 ≤ us ≤ 253402300799999999.

(** * Properties *)

(** ** The monad *)

Lemma bind_inr {A B} (m : M A) (f : A → M B) (a : A) :
  result m = inr a →
  m ≫= f = (trace m ++ trace (f a), result (f a)).
Proof.
  destruct m as [t r]; simpl; intros ->. reflexivity.
Qed.

Lemma bind_inl {A B} (m : M A) (f : A → M B) (e : exn) :
  result m = inl e → m ≫= f = (trace m, inl e).
Proof.
  destruct m as [t r]; simpl; intros ->. reflexivity.
Qed.

Lemma result_bind_inv {A B} (m : M A) (f : A → M B) (b : B) :
  result (m ≫= f) = inr b →
  ∃ a, result m = inr a ∧ result (f a) = inr b.
Proof.
  destruct m as [t [e|a]]; simpl; [discriminate|]. eauto.
Qed.

(** ** The column core *)

Lemma count_unset_replicate_false (n : nat) :
  count_unset (replicate n false) = Z.of_nat n.
Proof. induction n as [|n IH]; simpl count_unset; lia. Qed.

Lemma Column_init_ok (d : Buffer) (m : option Mask) (nc : Z) (dt : dtype) :
  invariants_hold d m nc = true →
  Column_init d m (Some nc) (Some dt) = ([], inr (mkColumn d m nc dt)).
Proof. unfold Column_init; simpl; intros ->. reflexivity. Qed.

Lemma Column_init_inv (d : Buffer) (m : option Mask) (nc : option Z)
    (dt : option dtype) (c : Column) :
  result (Column_init d m nc dt) = inr c →
  data c = d ∧ mask c = m ∧ col_dtype c = default (buf_dtype d) dt
  ∧ null_count c = default (from_option count_unset 0 m) nc
  ∧ valid_column c.
Proof.
  unfold Column_init, valid_column.
  destruct (invariants_hold d m _) eqn:Hinv; simpl; [|discriminate].
  intros [= <-]; simpl. auto.
Qed.

Lemma Column_init_computed (d : Buffer) (m : option Mask) (dt : dtype) :
  (∀ bits, m = Some bits → length bits = length (mem d)) →
  Column_init d m None (Some dt)
  = ([], inr (mkColumn d m (from_option count_unset 0 m) dt)).
Proof.
  intros Hlen. unfold Column_init; simpl.
  assert (invariants_hold d m (from_option count_unset 0 m) = true) as ->;
    [|reflexivity].
  unfold invariants_hold. destruct m as [bits|]; simpl; [|done].
  rewrite (Hlen bits eq_refl). by rewrite !bool_decide_eq_true_2.
Qed.

Lemma Column_init_trace (d : Buffer) (m : option Mask) (nc : option Z)
    (dt : option dtype) :
  trace (Column_init d m nc dt) = [].
Proof. unfold Column_init. destruct (invariants_hold d m _); reflexivity. Qed.

Lemma invariants_data_length (d d' : Buffer) (m : option Mask) (nc : Z) :
  length (mem d') = length (mem d) →
  invariants_hold d m nc = true → invariants_hold d' m nc = true.
Proof.
  unfold invariants_hold; destruct m as [bits|]; [|done].
  intros ->. done.
Qed.

Lemma valid_column_mask_length (c : Column) (m : Mask) :
  valid_column c → mask c = Some m → length m = len c.
Proof.
  unfold valid_column, invariants_hold, len; intros Hv Hm.
  rewrite Hm in Hv.
  apply andb_prop in Hv as [Hl _]. by apply bool_decide_eq_true in Hl.
Qed.

Lemma length_store {A} (buf new : list A) :
  length (store buf new) = length buf.
Proof.
  unfold store. rewrite length_app, length_take, length_drop. lia.
Qed.

(** ** Scalar coercion *)

Lemma wrap64_small (z : Z) : - 2 ^ 63 ≤ z < 2 ^ 63 → wrap64 z = z.
Proof.
  intros Hz. unfold wrap64.
  rewrite Z.mod_small; [lia|].
  change (2 ^ 64) with (2 ^ 63 + 2 ^ 63). lia.
Qed.

Lemma pandas_conversion_factor_value :
  (_pandas_conversion_factor == 1000000 # 1)%Q.
Proof. reflexivity. Qed.

(** The [pd.Timestamp] branch, which multiplies the nanosecond value by
    [_pandas_conversion_factor], is never taken: a [pandas.Timestamp] is a
    [datetime.datetime] and has become a [numpy.datetime64] by then. *)
Lemma timestamp_branch_unreachable (other : py_value) :
  isinstance_Timestamp
    (if isinstance_datetime other then np_datetime64 other else other)
  = false.
Proof. destruct other; reflexivity. Qed.

(** What that branch computes of a nanosecond value: the value times
    10^6. *)
Lemma timestamp_branch_value (value : Z) :
  Qfloor (inject_Z value * _pandas_conversion_factor) = value * 1000000.
Proof.
  rewrite (Qfloor_comp _ (inject_Z (value * 1000000))).
  - apply Qfloor_Z.
  - rewrite pandas_conversion_factor_value, inject_Z_mult. reflexivity.
Qed.

Lemma replace_data_dtype (self : Column) (buf : Buffer) :
  valid_column self → length (mem buf) = len self →
  replace self (mkKwargs (Some buf) None None (Some (col_dtype self)))
  = ([], inr (mkColumn buf (mask self) (null_count self) (col_dtype self))).
Proof.
  intros Hv Hlen. unfold replace; simpl.
  apply Column_init_ok.
  by apply (invariants_data_length (data self)).
Qed.

Lemma normalize_binop_value_accepted (self : Column) (other : py_value) :
  valid_column self → accepted_type other = true →
  normalize_binop_value self other
  = ([Allocate (len self) datetime64_ms],
     inr (mkColumn
            (mkBuffer (replicate (len self) (coerced_tick other))
               datetime64_ms)
            (mask self) (null_count self) (col_dtype self))).
Proof.
  intros Hv Hacc. unfold normalize_binop_value, coerced_tick.
  destruct other as [us|value|u v|s]; try discriminate;
    cbn [isinstance_datetime np_datetime64];
    (erewrite bind_inr by reflexivity);
    (rewrite replace_data_dtype;
      [reflexivity | assumption | simpl; apply length_replicate]).
Qed.

Lemma timestamp_tick (v : Z) :
  - 2 ^ 63 ≤ v < 2 ^ 63 →
  coerced_tick (PdTimestamp v) = v `div` 1000000.
Proof.
  intros Hv. unfold coerced_tick, astype_ms; simpl.
  pose proof (Z.mul_div_le v 1000 ltac:(lia)) as Hlo.
  pose proof (Z.mod_pos_bound v 1000 ltac:(lia)) as Hmod.
  pose proof (Z.div_mod v 1000 ltac:(lia)) as Hdm.
  set (q := v `div` 1000) in *.
  change (2 ^ 63) with 9223372036854775808 in Hv.
  rewrite bool_decide_eq_false_2
    by (unfold NaT; change (2 ^ 63) with 9223372036854775808; lia).
  rewrite Z.mul_1_r.
  pose proof (Z.mul_div_le q 1000 ltac:(lia)) as Hlo'.
  pose proof (Z.mod_pos_bound q 1000 ltac:(lia)) as Hmod'.
  pose proof (Z.div_mod q 1000 ltac:(lia)) as Hdm'.
  rewrite wrap64_small
    by (change (2 ^ 63) with 9223372036854775808; lia).
  subst q. rewrite Z.div_div by lia. reflexivity.
Qed.

(** C1.  A [pandas.Timestamp] whose nanosecond value is [v] is coerced,
    against a column of length [n], to a buffer of length [n] whose every
    entry is the millisecond tick [v / 10^6] (rounded down). *)
Theorem normalize_binop_value_timestamp (self : Column) (v : Z) :
  valid_column self → - 2 ^ 63 ≤ v < 2 ^ 63 →
  ∃ r, result (normalize_binop_value self (PdTimestamp v)) = inr r
       ∧ mem (data r) = replicate (len self) (v `div` 1000000)
       ∧ len r = len self
       ∧ ∀ i x, mem (data r) !! i = Some x → x = v `div` 1000000.
Proof.
  intros Hv Hr.
  rewrite normalize_binop_value_accepted by done.
  rewrite timestamp_tick by done.
  eexists; split; [reflexivity|]; simpl.
  split; [done|]. split; [apply length_replicate|].
  intros i x Hi. by apply lookup_replicate in Hi as [-> _].
Qed.

Lemma normalize_binop_value_timestamp_witness :
  ∃ r, result (normalize_binop_value scenario_column
                 (PdTimestamp 1577836800123456789)) = inr r
       ∧ mem (data r) = replicate 3%nat 1577836800123.
Proof.
  destruct (normalize_binop_value_timestamp scenario_column
              1577836800123456789) as (r & Hr & Hd & _).
  - reflexivity.
  - change (2 ^ 63) with 9223372036854775808. lia.
  - exists r. split; [exact Hr | exact Hd].
Defined.

(** C10.  The column a scalar is coerced to carries the mask and the null
    count of the column it is coerced against: it is null exactly where
    that column is. *)
Theorem normalize_binop_value_inherits_mask (self : Column)
    (other : py_value) :
  valid_column self → accepted_type other = true →
  ∃ r, result (normalize_binop_value self other) = inr r
       ∧ mask r = mask self
       ∧ null_count r = null_count self
       ∧ ∀ i, is_valid_at r i ↔ is_valid_at self i.
Proof.
  intros Hv Hacc.
  rewrite normalize_binop_value_accepted by done.
  eexists; split; [reflexivity|]; simpl.
  split; [done|]. split; [done|].
  intros i. unfold is_valid_at, len; simpl.
  destruct (mask self); [done|]. by rewrite length_replicate.
Qed.

Lemma normalize_binop_value_inherits_mask_witness :
  ∃ r, result (normalize_binop_value scenario_column
                 (NpDatetime64 unit_ms 42)) = inr r
       ∧ mask r = Some [true; false; true] ∧ null_count r = 1.
Proof.
  destruct (normalize_binop_value_inherits_mask scenario_column
              (NpDatetime64 unit_ms 42)) as (r & Hr & Hm & Hn & _).
  - reflexivity.
  - reflexivity.
  - exists r. split; [exact Hr|]. split; [exact Hm | exact Hn].
Defined.




(** ** Field extraction *)

Lemma column_empty_like_same_mask_eq (c : Column) (dt : dtype) :
  valid_column c →
  column_empty_like_same_mask c dt
  = ([Allocate (len c) dt], inr (allocated_same_mask c dt)).
Proof.
  intros Hv. unfold column_empty_like_same_mask, Column_init.
  assert (invariants_hold (mkBuffer (replicate (len c) 0) dt) (mask c)
            (default (from_option count_unset 0 (mask c)) None) = true)
    as ->; [|reflexivity].
  unfold invariants_hold; simpl.
  destruct (mask c) as [bits|] eqn:Hm; simpl; [|done].
  rewrite length_replicate, (valid_column_mask_length c bits Hv Hm).
  apply andb_true_intro; split; by apply bool_decide_eq_true.
Qed.

Section FieldExtraction.

Context {E : ComputeEngine}.

Lemma get_dt_field_eq (self : Column) (field : string) :
  valid_column self →
  get_dt_field self field
  = ([Allocate (len self) int16; EngineCall "apply_dt_extract_op" field],
     match apply_dt_extract_op self (allocated_same_mask self int16) field
     with
     | inl e => inl e
     | inr vals => inr (written_data (allocated_same_mask self int16) vals)
     end).
Proof.
  intros Hv. unfold get_dt_field.
  erewrite bind_inr by (rewrite column_empty_like_same_mask_eq by done;
                        reflexivity).
  rewrite column_empty_like_same_mask_eq by done.
  destruct (apply_dt_extract_op self _ field) as [e|vals] eqn:He.
  - erewrite bind_inl by reflexivity. reflexivity.
  - erewrite bind_inr by reflexivity. reflexivity.
Qed.

(** C5.  For each of the six field names the engine computes, the
    extracted column is a 16-bit integer column of the length of the
    source and carries the source's mask: it is null exactly where the
    source is. *)
Theorem get_dt_field_same_mask (self : Column) (field : string) :
  extracts_supported_fields → valid_column self →
  field ∈ supported_fields →
  ∃ out, result (get_dt_field self field) = inr out
         ∧ col_dtype out = int16
         ∧ buf_dtype (data out) = int16
         ∧ len out = len self
         ∧ mask out = mask self
         ∧ ∀ i, is_valid_at out i ↔ is_valid_at self i.
Proof.
  intros Heng Hv Hf.
  destruct (Heng self (allocated_same_mask self int16) field Hf)
    as [vals Hvals].
  rewrite get_dt_field_eq by done. simpl. rewrite Hvals.
  assert (len (written_data (allocated_same_mask self int16) vals)
          = len self) as Hlen.
  { unfold len; simpl. by rewrite length_store, length_replicate. }
  eexists; split; [reflexivity|].
  repeat split; try done.
  - unfold is_valid_at. rewrite Hlen. done.
  - unfold is_valid_at. rewrite Hlen. done.
Qed.

(** C7, amended.  [get_dt_field] checks no field name itself: for every
    name it allocates the output column and hands the name to the engine's
    [apply_dt_extract_op]; it fails exactly when that call fails, with the
    error of that call. *)
Theorem get_dt_field_delegates_field_check (self : Column)
    (field : string) :
  valid_column self →
  trace (get_dt_field self field)
  = [Allocate (len self) int16; EngineCall "apply_dt_extract_op" field]
  ∧ ∀ e, result (get_dt_field self field) = inl e
         ↔ apply_dt_extract_op self (allocated_same_mask self int16) field
           = inl e.
Proof.
  intros Hv. rewrite get_dt_field_eq by done. simpl.
  split; [reflexivity|]. intros e.
  destruct (apply_dt_extract_op self _ field) as [e'|vals];
    split; congruence.
Qed.

End FieldExtraction.

Lemma sample_engine_extracts :
  @extracts_supported_fields sample_engine.
Proof.
  intros incol outcol field Hf. simpl.
  rewrite bool_decide_eq_true_2 by done. eauto.
Qed.

Lemma get_dt_field_same_mask_witness :
  ∃ out, result (get_dt_field (E:=sample_engine) scenario_column "month")
         = inr out
         ∧ col_dtype out = int16 ∧ mask out = Some [true; false; true].
Proof.
  destruct (get_dt_field_same_mask (E:=sample_engine) scenario_column
              "month") as (out & Hr & Hd & _ & _ & Hm & _).
  - exact sample_engine_extracts.
  - reflexivity.
  - by apply (bool_decide_unpack _).
  - exists out. split; [exact Hr|]. split; [exact Hd | exact Hm].
Defined.

(** C7, as stated, fails: for the unsupported name [week] the engine is
    called before any error is raised. *)
Lemma get_dt_field_rejects_before_engine_counterexample :
  ¬ (∀ (E : ComputeEngine) (self : Column) (field : string),
       field ∉ supported_fields →
       (∃ e, result (get_dt_field self field) = inl e)
       ∧ no_engine_call (trace (get_dt_field self field)) = true).
Proof.
  intros Hclaim.
  destruct (Hclaim sample_engine scenario_column "week") as [_ Htrace].
  - by apply (bool_decide_unpack _).
  - vm_compute in Htrace. discriminate Htrace.
Qed.

Lemma get_dt_field_delegates_field_check_witness :
  trace (get_dt_field (E:=sample_engine) scenario_column "week")
  = [Allocate 3 int16; EngineCall "apply_dt_extract_op" "week"]
  ∧ result (get_dt_field (E:=sample_engine) scenario_column "week")
    = inl (KeyError "week").
Proof.
  destruct (get_dt_field_delegates_field_check (E:=sample_engine)
              scenario_column "week") as [Ht He].
  - reflexivity.
  - split; [exact Ht|]. apply He. reflexivity.
Defined.

(** ** Comparisons *)

Lemma column_empty_like_eq (c : Column) (dt : dtype) (masked : bool) :
  column_empty_like c dt masked
  = ([Allocate (len c) dt], inr (allocated_like c dt masked)).
Proof.
  unfold column_empty_like, Column_init, allocated_like, invariants_hold.
  destruct masked; simpl.
  - rewrite !length_replicate, count_unset_replicate_false.
    rewrite !bool_decide_eq_true_2 by done. reflexivity.
  - reflexivity.
Qed.

Section Comparisons.

Context {E : ComputeEngine}.

Lemma binop_eq (lhs rhs : Column) (op : string) (dt : dtype) :
  let out := allocated_like lhs dt (has_null_mask lhs || has_null_mask rhs) in
  binop lhs rhs op dt
  = ([Allocate (len lhs) dt; EngineCall "apply_op" op],
     match apply_op lhs rhs out op with
     | inl e => inl e
     | inr (vals, bits, nc) =>
         result (replace (written out vals bits)
                   (mkKwargs None None (Some nc) None))
     end).
Proof.
  intros out. unfold binop.
  erewrite bind_inr by (rewrite column_empty_like_eq; reflexivity).
  rewrite column_empty_like_eq. fold out.
  destruct (apply_op lhs rhs out op) as [e|[[vals bits] nc]].
  - erewrite bind_inl by reflexivity. reflexivity.
  - erewrite bind_inr by reflexivity.
    cbn [trace result fst snd app].
    pose proof (Column_init_trace (data (written out vals bits))
                  (mask (written out vals bits)) (Some nc)
                  (Some (col_dtype (written out vals bits)))) as Ht.
    unfold replace. cbn [kw_data kw_mask kw_null_count kw_dtype default].
    destruct (Column_init _ _ _ _) as [t [e|c]]; simpl in Ht; subst t;
      reflexivity.
Qed.

(** C6.  When the engine's [apply_op] returns the null count [nc], the
    column [binop] returns is a boolean column that carries a mask exactly
    when one of the inputs does, and whose null count is [nc]; and [binop]
    returns a column whenever [nc] agrees with the validity bits the engine
    wrote.  Both comparison methods are this call. *)
Theorem binop_mask_and_null_count (lhs rhs : Column) (op : string)
    (vals : list Z) (bits : Mask) (nc : Z) :
  let masked := has_null_mask lhs || has_null_mask rhs in
  let out0 := allocated_like lhs bool_ masked in
  apply_op lhs rhs out0 op = inr (vals, bits, nc) →
  (∀ out, result (binop lhs rhs op bool_) = inr out →
     col_dtype out = bool_
     ∧ (is_Some (mask out) ↔ is_Some (mask lhs) ∨ is_Some (mask rhs))
     ∧ null_count out = nc)
  ∧ (nc = from_option count_unset 0 (mask (written out0 vals bits)) →
     ∃ out, result (binop lhs rhs op bool_) = inr out)
  ∧ unordered_compare lhs op rhs = binop lhs rhs op bool_
  ∧ ordered_compare lhs op rhs = binop lhs rhs op bool_.
Proof.
  intros masked out0 Heng.
  split; [|split; [|split; reflexivity]];
    rewrite binop_eq; fold masked out0; rewrite Heng; cbn [result snd].
  - intros out Hout. unfold replace in Hout.
    apply Column_init_inv in Hout as (_ & Hm & Hdt & Hnc & _).
    simpl in Hm, Hdt, Hnc. split; [done|]. split; [|done].
    rewrite Hm. unfold masked, has_null_mask.
    destruct (mask lhs), (mask rhs); simpl;
      rewrite !is_Some_alt; tauto.
  - intros Hnc. unfold replace.
    cbn [kw_data kw_mask kw_null_count kw_dtype default].
    rewrite Column_init_ok; [eauto|].
    unfold invariants_hold. subst nc. unfold out0, allocated_like.
    destruct masked; simpl; [|done].
    rewrite !length_store, !length_replicate.
    rewrite !bool_decide_eq_true_2 by done. reflexivity.
Qed.

End Comparisons.

Lemma binop_mask_and_null_count_witness :
  ∃ out, result (binop (E:=sample_engine) scenario_column scenario_column
                   "lt" bool_) = inr out
         ∧ col_dtype out = bool_ ∧ is_Some (mask out) ∧ null_count out = 1.
Proof.
  destruct (binop_mask_and_null_count (E:=sample_engine) scenario_column
              scenario_column "lt" [0; 0; 0] [true; false; true] 1)
    as (Hprops & Hret & _).
  - reflexivity.
  - destruct Hret as [out Hout]; [reflexivity|].
    destruct (Hprops out Hout) as (Hd & Hm & Hn).
    exists out. split; [exact Hout|]. split; [exact Hd|].
    split; [|exact Hn]. apply Hm. left. simpl. eauto.
Defined.

(** ** Export to the Arrow array format *)

Lemma wrap64_mod (v : Z) : wrap64 (v `mod` 2 ^ 64) = wrap64 v.
Proof.
  unfold wrap64. rewrite Z.add_mod_idemp_l by lia. reflexivity.
Qed.

Lemma le_digits_sum (v : Z) (n s : nat) :
  foldr (λ b acc, b + 256 * acc) 0
    ((λ k : nat, (v `div` 256 ^ Z.of_nat k) `mod` 256) <$> seq s n)
  = (v `div` 256 ^ Z.of_nat s) `mod` 256 ^ Z.of_nat n.
Proof.
  revert s. induction n as [|n IH]; intros s.
  - simpl. by rewrite Z.mod_1_r.
  - cbn [seq fmap list_fmap foldr]. rewrite IH.
    rewrite !Nat2Z.inj_succ, !Z.pow_succ_r by lia.
    rewrite (Z.mul_comm 256 (256 ^ Z.of_nat s)).
    rewrite <- (Z.div_div v (256 ^ Z.of_nat s) 256) by lia.
    symmetry. apply Z.rem_mul_r; lia.
Qed.

Lemma int64_byte_digit (v : Z) (k : nat) :
  Z.land (Z.shiftr v (8 * Z.of_nat k)) 255
  = (v `div` 256 ^ Z.of_nat k) `mod` 256.
Proof.
  change 255 with (Z.ones 8).
  rewrite Z.land_ones, Z.shiftr_div_pow2 by lia.
  rewrite Z.pow_mul_r by lia. reflexivity.
Qed.

Lemma int64_of_bytes_int64_bytes (v : Z) :
  int64_of_bytes (int64_bytes v) = wrap64 v.
Proof.
  unfold int64_of_bytes, int64_bytes.
  rewrite (list_fmap_ext _
             (λ k : nat, (v `div` 256 ^ Z.of_nat k) `mod` 256) (seq 0 8))
    by (intros; apply int64_byte_digit).
  rewrite le_digits_sum. simpl Z.of_nat.
  rewrite Z.pow_0_r, Z.div_1_r.
  change (256 ^ 8) with (2 ^ 64). apply wrap64_mod.
Qed.

Lemma length_int64_bytes (v : Z) : length (int64_bytes v) = 8%nat.
Proof. reflexivity. Qed.

Lemma length_view_int64_bytes (l : list Z) :
  length (view_int64_bytes l) = (8 * length l)%nat.
Proof.
  unfold view_int64_bytes.
  induction l as [|v l IH]; [reflexivity|].
  cbn [mbind list_bind]. rewrite length_app, length_int64_bytes.
  fold (l ≫= int64_bytes). rewrite IH. simpl length. lia.
Qed.

Lemma chunks8_view_int64_bytes (l : list Z) :
  chunks8 (length l) (view_int64_bytes l) = int64_bytes <$> l.
Proof.
  unfold view_int64_bytes.
  induction l as [|v l IH]; [reflexivity|].
  cbn [mbind list_bind length chunks8 fmap list_fmap].
  fold (l ≫= int64_bytes).
  rewrite (take_app_length' (int64_bytes v)) by reflexivity.
  rewrite (drop_app_length' (int64_bytes v)) by reflexivity.
  f_equal. exact IH.
Qed.

Lemma decode_view_int64_bytes (l : list Z) :
  decode_int64s (view_int64_bytes l) = wrap64 <$> l.
Proof.
  unfold decode_int64s.
  rewrite length_view_int64_bytes, Nat.mul_comm, Nat.div_mul by lia.
  rewrite chunks8_view_int64_bytes, <- list_fmap_compose.
  apply list_fmap_ext. intros i v _. apply int64_of_bytes_int64_bytes.
Qed.


(** ** Null filling *)

Lemma store_lookup_keep {A} (buf new : list A) (i : nat) :
  new !! i = buf !! i → store buf new !! i = buf !! i.
Proof.
  intros Heq. unfold store.
  destruct (decide (i < length buf)%nat) as [Hlt|Hge].
  - assert (i < length new)%nat as Hnew.
    { apply lookup_lt_is_Some. rewrite Heq. by apply lookup_lt_is_Some. }
    rewrite lookup_app_l by (rewrite length_take; lia).
    rewrite lookup_take_lt by lia. exact Heq.
  - rewrite (lookup_ge_None_2 buf) by lia.
    apply lookup_ge_None_2.
    rewrite length_app, length_take, length_drop. lia.
Qed.

Section NullFilling.

Context {E : ComputeEngine}.

Lemma fillna_eq (self : Column) (fv : fill_value) (inplace : bool) :
  fillna self fv inplace
  = ([Allocate (len self) (buf_dtype (data self));
      Allocate (length (fill_ticks fv)) datetime64_ms;
      EngineCall "replace_nulls" ""],
     match replace_nulls self (fill_column fv) with
     | inl e => inl e
     | inr vals =>
         let r :=
           mkColumn
             (mkBuffer (store (mem (data self)) vals)
                (buf_dtype (data self)))
             None 0 (col_dtype self) in
         inr (if inplace then (r, None) else (self, Some r))
     end).
Proof.
  unfold fillna.
  rewrite (bind_inr (copy self) _ self) by reflexivity.
  rewrite (bind_inr (as_column fv) _ (fill_column fv)) by reflexivity.
  destruct (replace_nulls self (fill_column fv)) as [e|vals].
  - erewrite bind_inl by reflexivity. reflexivity.
  - erewrite bind_inr by reflexivity.
    erewrite bind_inr by reflexivity.
    destruct inplace; reflexivity.
Qed.

(** C2.  Whatever the engine's [replace_nulls] wrote, the column [fillna]
    produces has no mask and a null count of 0; and when the engine writes
    back unchanged the entries that are values, every entry of the column
    that was not null holds its value.  With [inplace] the column produced
    becomes the receiver and nothing is returned. *)
Theorem fillna_clears_mask (self : Column) (fv : fill_value)
    (inplace : bool) (vals : list Z) :
  replace_nulls self (fill_column fv) = inr vals →
  ∃ r, result (fillna self fv inplace)
       = inr (if inplace then (r, None) else (self, Some r))
       ∧ mask r = None
       ∧ null_count r = 0
       ∧ len r = len self
       ∧ (replace_nulls_keeps_values →
          ∀ i, is_valid_at self i →
               mem (data r) !! i = mem (data self) !! i).
Proof.
  intros Heng. rewrite fillna_eq, Heng. cbn [result snd].
  eexists; split; [reflexivity|]. simpl.
  split; [done|]. split; [done|].
  split; [unfold len; simpl; apply length_store|].
  intros Hkeep i Hi. apply store_lookup_keep.
  by apply (Hkeep self (fill_column fv)).
Qed.

End NullFilling.

Lemma sample_engine_keeps_values :
  @replace_nulls_keeps_values sample_engine.
Proof.
  intros col fill vals i [= <-] Hi.
  rewrite list_lookup_imap.
  assert (validity col !! i = Some true) as ->.
  { unfold validity, is_valid_at in *.
    destruct (mask col); simpl; [done|].
    by apply lookup_replicate_2. }
  simpl. by destruct (mem (data col) !! i).
Qed.

Lemma fillna_clears_mask_witness :
  ∃ r, result (fillna (E:=sample_engine) scenario_column (FillScalar 7)
                 false) = inr (scenario_column, Some r)
       ∧ mask r = None ∧ null_count r = 0
       ∧ mem (data r) !! 0%nat = Some 1577836800000
       ∧ mem (data r) !! 2%nat = Some 1560556800000.
Proof.
  destruct (fillna_clears_mask (E:=sample_engine) scenario_column
              (FillScalar 7) false [1577836800000; 7; 1560556800000])
    as (r & Hr & Hm & Hn & _ & Hkeep).
  - reflexivity.
  - exists r. split; [exact Hr|]. split; [exact Hm|]. split; [exact Hn|].
    split.
    + rewrite (Hkeep sample_engine_keeps_values 0%nat); reflexivity.
    + rewrite (Hkeep sample_engine_keeps_values 2%nat); reflexivity.
Defined.

(** ** Sorting *)

Section Sorting.

Context {E : ComputeEngine}.

Lemma sort_by_values_inv (self : Column) (ascending : bool)
    (na_position : string) (keys inds : Column) :
  result (sort_by_values self ascending na_position) = inr (keys, inds) →
  ∃ sort_inds,
    get_sorted_inds self ascending na_position = inr sort_inds
    ∧ data inds = data sort_inds
    ∧ mask inds = mask sort_inds
    ∧ data keys
      = mkBuffer (gather (mem (data self)) (mem (data sort_inds)))
          (buf_dtype (data self))
    ∧ mask keys
      = (λ m, mask_take m (mem (data sort_inds))) <$> mask self
    ∧ null_count keys = null_count self
    ∧ col_dtype keys = col_dtype self
    ∧ valid_column keys.
Proof.
  unfold sort_by_values. intros Hres.
  apply result_bind_inv in Hres as (sort_inds & Heng & Hres).
  apply result_bind_inv in Hres as ([] & _ & Hres).
  apply result_bind_inv in Hres as (col_keys & Hkeys & Hres).
  apply result_bind_inv in Hres as (col_inds & Hinds & Hres).
  injection Hres as <- <-.
  apply Column_init_inv in Hkeys as (Hkd & Hkm & Hkt & Hkn & Hkv).
  apply Column_init_inv in Hinds as (Hid & Him & _).
  exists sort_inds. simpl in *.
  repeat split; done.
Qed.

(** C3.  Gathering the column through the indices column that
    [sort_by_values] returns gives the keys column it returns: the data and,
    when there is a mask, the mask are those of the column read at the
    indices, and the null count and the type are the same. *)
Theorem sort_by_values_gather (self : Column) (ascending : bool)
    (na_position : string) (keys inds : Column) :
  result (sort_by_values self ascending na_position) = inr (keys, inds) →
  result (gather_column self inds) = inr keys
  ∧ mem (data keys) = gather (mem (data self)) (mem (data inds))
  ∧ mask keys = (λ m, mask_take m (mem (data inds))) <$> mask self.
Proof.
  intros Hres.
  apply sort_by_values_inv in Hres
    as (si & _ & Hid & _ & Hkd & Hkm & Hkn & Hkt & Hkv).
  rewrite Hid. split; [|split; [by rewrite Hkd | done]].
  unfold gather_column, Column_init. rewrite Hid, <- Hkd, <- Hkm, <- Hkt.
  unfold valid_column in Hkv.
  destruct keys as [kd km kn kt]; simpl in *.
  assert (from_option count_unset 0 km = kn) as ->.
  { unfold invariants_hold in Hkv. destruct km as [bits|]; simpl.
    - apply andb_prop in Hkv as [_ Hc].
      by apply bool_decide_eq_true in Hc.
    - by apply bool_decide_eq_true in Hkv. }
  rewrite Hkv. reflexivity.
Qed.

(** [sort_by_values] returns when the engine returns a well-formed index
    column through which the mask keeps its number of nulls. *)
Lemma sort_by_values_returns (self : Column) (ascending : bool)
    (na_position : string) (sort_inds : Column) :
  valid_column self → valid_column sort_inds →
  get_sorted_inds self ascending na_position = inr sort_inds →
  (∀ m, mask self = Some m →
        count_unset (mask_take m (mem (data sort_inds)))
        = null_count self) →
  ∃ keys inds,
    result (sort_by_values self ascending na_position) = inr (keys, inds).
Proof.
  intros Hv Hvi Heng Hcount. unfold sort_by_values.
  rewrite Heng. erewrite bind_inr by reflexivity.
  erewrite bind_inr by reflexivity.
  unfold replace. cbn [kw_data kw_mask kw_null_count kw_dtype default].
  rewrite Column_init_ok.
  - erewrite bind_inr by reflexivity.
    rewrite Column_init_computed.
    + erewrite bind_inr by reflexivity. simpl. eauto.
    + intros bits Hbits.
      by apply (valid_column_mask_length sort_inds).
  - unfold valid_column, invariants_hold in *.
    destruct (mask self) as [m|] eqn:Hm; simpl; [|done].
    rewrite (Hcount m eq_refl).
    unfold gather, mask_take. rewrite !length_fmap.
    by rewrite !bool_decide_eq_true_2.
Qed.

End Sorting.

(** The sort scenario of the specification: [2020-01-01, null, 2019-06-15],
    ascending with nulls last, gives the keys [2019-06-15, 2020-01-01, null]
    and the indices [2, 0, 1]. *)
Example sort_scenario :
  result (sort_by_values (E:=sample_engine) scenario_column true "last")
  = inr (mkColumn
           (mkBuffer [1560556800000; 1577836800000; 0] datetime64_ms)
           (Some [true; true; false]) 1 datetime64_ms,
         mkColumn (mkBuffer [2; 0; 1] int32) None 0 int32).
Proof. reflexivity. Qed.

Lemma sort_by_values_gather_witness :
  result (gather_column scenario_column
            (mkColumn (mkBuffer [2; 0; 1] int32) None 0 int32))
  = inr (mkColumn
           (mkBuffer [1560556800000; 1577836800000; 0] datetime64_ms)
           (Some [true; true; false]) 1 datetime64_ms).
Proof.
  apply (sort_by_values_gather (E:=sample_engine) scenario_column true
           "last").
  reflexivity.
Defined.

(** ** Serialization *)

Section RoundTrip.

Context {Ser : Serializer}.

Lemma serialize_eq (self : Column) :
  serialize self
  = ([], inr (serialized_header self, serialized_frames self)).
Proof.
  unfold serialize, base_serialize.
  erewrite bind_inr by reflexivity. cbn [trace result fst snd app].
  rewrite bool_decide_eq_true_2 by (by apply lookup_singleton_ne).
  reflexivity.
Qed.

Lemma deserialize_serialized (self : Column) :
  serializer_round_trip → valid_column self →
  deserialize (serialized_header self) (serialized_frames self)
  = ([], inr self).
Proof.
  intros Hrt Hv. unfold deserialize.
  rewrite (bind_inr _ _ (data self, mask self))
    by (unfold serialized_frames; destruct (mask self); reflexivity).
  assert (trace (_deserialize_data_mask (serialized_header self)
                   (serialized_frames self)) = []) as ->
    by (unfold serialized_frames; destruct (mask self); reflexivity).
  assert (header_int (serialized_header self) "null_count"
          = ([], inr (null_count self))) as Hnc.
  { unfold header_int, serialized_header.
    rewrite lookup_insert_ne by done.
    by rewrite lookup_singleton_eq. }
  assert (header_serialized (serialized_header self) "dtype"
          = ([], inr (serialize_dtype (col_dtype self)))) as Hdt.
  { unfold header_serialized, serialized_header.
    rewrite lookup_insert_eq. by destruct (serialize_dtype _). }
  cbn [trace result fst snd app].
  rewrite Hnc. erewrite bind_inr by reflexivity.
  rewrite Hdt. erewrite bind_inr by reflexivity.
  cbn [trace result fst snd app].
  destruct (serialize_dtype (col_dtype self)) as [h fs] eqn:Hser.
  pose proof (Hrt (col_dtype self)) as Hback. rewrite Hser in Hback.
  simpl in Hback. unfold lift_exn. rewrite Hback.
  erewrite bind_inr by reflexivity.
  rewrite Column_init_ok by exact Hv.
  erewrite bind_inr by reflexivity.
  by destruct self.
Qed.

(** C4.  With a serializer that reads back the dtype it wrote,
    deserializing what [serialize] produced of a column gives the column
    again: the same data, mask, null count and dtype. *)
Theorem serialize_deserialize_round_trip (self : Column) :
  serializer_round_trip → valid_column self →
  ∃ header frames,
    result (serialize self) = inr (header, frames)
    ∧ result (deserialize header frames) = inr self.
Proof.
  intros Hrt Hv.
  exists (serialized_header self), (serialized_frames self).
  rewrite serialize_eq, deserialize_serialized by done. done.
Qed.

End RoundTrip.

Lemma sample_serializer_round_trip :
  @serializer_round_trip sample_serializer.
Proof. intros []; reflexivity. Qed.

Lemma serialize_deserialize_round_trip_witness :
  ∃ header frames,
    result (serialize (Ser:=sample_serializer) scenario_column)
    = inr (header, frames)
    ∧ result (deserialize header frames) = inr scenario_column.
Proof.
  apply (serialize_deserialize_round_trip (Ser:=sample_serializer)
           scenario_column).
  - exact sample_serializer_round_trip.
  - reflexivity.
Defined.

(** * Further properties *)

(** ** Coercion of the other scalars *)

Lemma astype_ms_NaT (u : time_unit) : astype_ms u NaT = NaT.
Proof. unfold astype_ms. by rewrite bool_decide_eq_true_2. Qed.

Lemma astype_ms_exact (u : time_unit) (v : Z) :
  v ≠ NaT →
  is_int64 ((v * (ms_per_tick u).1) `div` (ms_per_tick u).2) →
  astype_ms u v = (v * (ms_per_tick u).1) `div` (ms_per_tick u).2.
Proof.
  intros Hv Hr. unfold astype_ms.
  rewrite bool_decide_eq_false_2 by done. by apply wrap64_small.
Qed.

(** X1.  A [numpy.datetime64] already in milliseconds is used as it is:
    every entry of the buffer is its tick, NaT included. *)
Theorem normalize_binop_value_ms_identity (self : Column) (v : Z) :
  valid_column self → is_int64 v →
  ∃ r, result (normalize_binop_value self (NpDatetime64 unit_ms v)) = inr r
       ∧ mem (data r) = replicate (len self) v.
Proof.
  intros Hv Hr. rewrite normalize_binop_value_accepted by done.
  eexists; split; [reflexivity|]. simpl. f_equal.
  unfold coerced_tick. cbn [np_datetime64].
  destruct (decide (v = NaT)) as [->|Hn]; [apply astype_ms_NaT|].
  rewrite astype_ms_exact; cbn [ms_per_tick fst snd].
  - by rewrite Z.mul_1_r, Z.div_1_r.
  - done.
  - by rewrite Z.mul_1_r, Z.div_1_r.
Qed.

Lemma normalize_binop_value_ms_identity_witness :
  ∃ r, result (normalize_binop_value scenario_column
                 (NpDatetime64 unit_ms 1577836800000)) = inr r
       ∧ mem (data r) = replicate 3%nat 1577836800000.
Proof.
  apply (normalize_binop_value_ms_identity scenario_column 1577836800000).
  - reflexivity.
  - unfold is_int64. change (2 ^ 63) with 9223372036854775808. lia.
Defined.

(** X2.  A native [datetime.datetime], [us] microseconds from the epoch, is
    coerced to the tick [us / 1000] rounded down, so that an instant before
    the epoch goes to the millisecond that contains it. *)
Theorem normalize_binop_value_datetime (self : Column) (us : Z) :
  valid_column self → is_datetime_us us →
  ∃ r, result (normalize_binop_value self (PyDatetime us)) = inr r
       ∧ mem (data r) = replicate (len self) (us `div` 1000)
       ∧ ∀ t, In t (mem (data r)) → 1000 * t ≤ us < 1000 * t + 1000.
Proof.
  intros Hv Hr. rewrite normalize_binop_value_accepted by done.
  pose proof (Z.mod_pos_bound us 1000 ltac:(lia)) as Hmod.
  pose proof (Z.div_mod us 1000 ltac:(lia)) as Hdm.
  assert (coerced_tick (PyDatetime us) = us `div` 1000) as Htick.
  { unfold coerced_tick, is_datetime_us in *. cbn [np_datetime64].
    rewrite astype_ms_exact; cbn [ms_per_tick fst snd];
      rewrite ?Z.mul_1_r; [done| |].
    - unfold NaT. change (2 ^ 63) with 9223372036854775808. lia.
    - unfold is_int64. change (2 ^ 63) with 9223372036854775808. lia. }
  rewrite Htick.
  eexists; split; [reflexivity|]. simpl. split; [done|].
  intros t Ht. apply list_elem_of_In, elem_of_replicate in Ht as [-> _].
  lia.
Qed.

Lemma normalize_binop_value_datetime_witness :
  ∃ r, result (normalize_binop_value scenario_column (PyDatetime (-1)))
       = inr r
       ∧ mem (data r) = replicate 3%nat (-1).
Proof.
  destruct (normalize_binop_value_datetime scenario_column (-1))
    as (r & Hr & Hd & _).
  - reflexivity.
  - unfold is_datetime_us. lia.
  - exists r. split; [exact Hr | exact Hd].
Defined.



Lemma normalize_binop_value_returns_accepted (self : Column)
    (other : py_value) (r : Column) :
  result (normalize_binop_value self other) = inr r →
  accepted_type other = true.
Proof.
  destruct other as [us|value|u v|s]; try reflexivity. discriminate.
Qed.

(** X4.  Whenever a scalar is coerced against a well-formed column, the
    column returned is well formed, has the length and the dtype of the
    target over a millisecond buffer, and one buffer was allocated, with no
    call to the engine. *)
Theorem normalize_binop_value_well_formed (self : Column)
    (other : py_value) (r : Column) :
  valid_column self →
  result (normalize_binop_value self other) = inr r →
  valid_column r
  ∧ len r = len self
  ∧ col_dtype r = col_dtype self
  ∧ buf_dtype (data r) = datetime64_ms
  ∧ trace (normalize_binop_value self other)
    = [Allocate (len self) datetime64_ms].
Proof.
  intros Hv Hres.
  pose proof (normalize_binop_value_returns_accepted _ _ _ Hres) as Hacc.
  rewrite normalize_binop_value_accepted in Hres |- * by done.
  injection Hres as <-. unfold valid_column, len; simpl.
  split; [|by rewrite length_replicate].
  apply (invariants_data_length (data self)); [|done].
  simpl. apply length_replicate.
Qed.

Lemma normalize_binop_value_well_formed_witness :
  trace (normalize_binop_value scenario_column (PyDatetime 5000))
  = [Allocate 3 datetime64_ms].
Proof.
  eapply (normalize_binop_value_well_formed scenario_column
            (PyDatetime 5000)); reflexivity.
Defined.

(** ** The default null value *)

(** X5.  On a column of the millisecond timestamp type [default_na_value]
    is NaT, and coercing it against the column gives a buffer of NaT ticks
    under the column's mask; on a column tagged with any other type it
    raises a type error that names the type. *)
Theorem default_na_value_coerced (self : Column) :
  valid_column self →
  (col_dtype self = datetime64_ms →
   ∃ r, result (na ← default_na_value self; normalize_binop_value self na)
        = inr r
        ∧ mem (data r) = replicate (len self) NaT
        ∧ mask r = mask self)
  ∧ (col_dtype self ≠ datetime64_ms →
     default_na_value self
     = ([], inl (TypeError ("datetime column of "
                            +:+ dtype_str (col_dtype self)
                            +:+ " has no NaN value")))).
Proof.
  intros Hv. split.
  - intros Hdt. unfold default_na_value. rewrite Hdt.
    rewrite (bind_inr _ _ (NpDatetime64 unit_ms NaT)) by reflexivity.
    rewrite normalize_binop_value_accepted by done.
    eexists; split; [reflexivity|]. simpl. split; [|done].
    unfold coerced_tick. cbn [np_datetime64]. by rewrite astype_ms_NaT.
  - intros Hdt. unfold default_na_value.
    destruct (col_dtype self); try reflexivity. done.
Qed.

Lemma default_na_value_coerced_witness :
  (∃ r, result (na ← default_na_value scenario_column;
                normalize_binop_value scenario_column na) = inr r
        ∧ mem (data r) = replicate 3%nat NaT
        ∧ mask r = Some [true; false; true])
  ∧ default_na_value (mkColumn (mkBuffer [2; 0; 1] int32) None 0 int32)
    = ([], inl (TypeError "datetime column of int32 has no NaN value")).
Proof.
  split.
  - apply (default_na_value_coerced scenario_column); reflexivity.
  - apply (default_na_value_coerced
             (mkColumn (mkBuffer [2; 0; 1] int32) None 0 int32));
      [reflexivity | discriminate].
Defined.

(** ** Field extraction and comparison: the shape of the result *)

Lemma valid_column_null_count (c : Column) :
  valid_column c → null_count c = from_option count_unset 0 (mask c).
Proof.
  unfold valid_column, invariants_hold. destruct (mask c); simpl.
  - intros [_ Hc]%andb_prop. by apply bool_decide_eq_true in Hc.
  - intros Hc. by apply bool_decide_eq_true in Hc.
Qed.

Section Shapes.

Context {E : ComputeEngine}.

(** X6.  Whatever the engine writes for a field, and however many values,
    the column [get_dt_field] returns is well formed, has the length of the
    source and its null count. *)
Theorem get_dt_field_shape (self : Column) (field : string)
    (out : Column) :
  valid_column self →
  result (get_dt_field self field) = inr out →
  valid_column out
  ∧ len out = len self
  ∧ null_count out = null_count self.
Proof.
  intros Hv Hres. rewrite get_dt_field_eq in Hres by done.
  simpl in Hres.
  destruct (apply_dt_extract_op self _ field) as [e|vals];
    [discriminate|].
  injection Hres as <-.
  assert (len (written_data (allocated_same_mask self int16) vals)
          = len self) as Hlen.
  { unfold len; simpl. by rewrite length_store, length_replicate. }
  split; [|split; [done|]].
  - unfold valid_column; simpl.
    unfold invariants_hold.
    destruct (mask self) as [bits|] eqn:Hm; simpl; [|done].
    rewrite length_store, length_replicate.
    rewrite (valid_column_mask_length self bits Hv Hm).
    by rewrite !bool_decide_eq_true_2.
  - simpl. symmetry. by apply valid_column_null_count.
Qed.

(** X7.  Each of the six accessors asks the engine for a field it
    computes: with an engine that computes the supported fields, [year],
    [month], [day], [hour], [minute] and [second] all return a column with
    the mask of the source. *)
Theorem accessors_return (self : Column) :
  extracts_supported_fields → valid_column self →
  Forall (λ accessor : Column → M Column,
            ∃ out, result (accessor self) = inr out
                   ∧ mask out = mask self ∧ col_dtype out = int16)
    [year; month; day; hour; minute; second].
Proof.
  intros Heng Hv.
  assert (∀ field, field ∈ supported_fields →
            ∃ out, result (get_dt_field self field) = inr out
                   ∧ mask out = mask self ∧ col_dtype out = int16)
    as Hfield.
  { intros field Hf.
    destruct (Heng self (allocated_same_mask self int16) field Hf)
      as [vals Hvals].
    rewrite get_dt_field_eq by done. simpl. rewrite Hvals. eauto. }
  repeat constructor; apply Hfield; by apply (bool_decide_unpack _).
Qed.

(** X8.  When the engine's [apply_op] raises, [binop] raises the same
    error after allocating the output; when [binop] returns, the column is
    well formed, of the requested type and of the length of the left
    operand, however many values the engine wrote. *)
Theorem binop_shape (lhs rhs : Column) (op : string) (dt : dtype) :
  let out0 :=
    allocated_like lhs dt (has_null_mask lhs || has_null_mask rhs) in
  (∀ e, apply_op lhs rhs out0 op = inl e →
        binop lhs rhs op dt
        = ([Allocate (len lhs) dt; EngineCall "apply_op" op], inl e))
  ∧ (∀ out, result (binop lhs rhs op dt) = inr out →
            valid_column out ∧ len out = len lhs
            ∧ col_dtype out = dt ∧ buf_dtype (data out) = dt).
Proof.
  intros out0. split.
  - intros e He. rewrite binop_eq. fold out0. by rewrite He.
  - intros out. rewrite binop_eq. fold out0. cbn [result snd].
    destruct (apply_op lhs rhs out0 op) as [e|[[vals bits] nc]];
      [discriminate|].
    intros (Hd & _ & Ht & _ & Hval)%Column_init_inv.
    simpl in Hd, Ht. split; [done|].
    unfold len. rewrite Hd. simpl.
    by rewrite length_store, length_replicate.
Qed.

(** X9.  Comparing a column with a scalar coerced against it: the two
    operands have the same length and the same mask, so the boolean column
    returned has the length of the column and carries a mask exactly when
    the column does. *)
Theorem compare_with_scalar (self : Column) (other : py_value)
    (cmpop : string) (out : Column) :
  valid_column self →
  result (rhs ← normalize_binop_value self other;
          unordered_compare self cmpop rhs) = inr out →
  col_dtype out = bool_
  ∧ len out = len self
  ∧ (is_Some (mask out) ↔ is_Some (mask self)).
Proof.
  intros Hv Hres.
  apply result_bind_inv in Hres as (rhs & Hrhs & Hres).
  pose proof (normalize_binop_value_returns_accepted _ _ _ Hrhs) as Hacc.
  rewrite normalize_binop_value_accepted in Hrhs by done.
  injection Hrhs as <-.
  unfold unordered_compare in Hres. rewrite binop_eq in Hres.
  cbn [result snd] in Hres.
  destruct (apply_op self _ _ cmpop) as [e|[[vals bits] nc]];
    [discriminate|].
  apply Column_init_inv in Hres as (Hd & Hm & Ht & _ & _).
  simpl in Hd, Hm, Ht. split; [done|]. split.
  - unfold len. rewrite Hd. simpl.
    by rewrite length_store, length_replicate.
  - rewrite Hm. unfold has_null_mask; simpl.
    destruct (mask self); simpl; rewrite !is_Some_alt; tauto.
Qed.

End Shapes.

Lemma get_dt_field_shape_witness :
  ∃ out, result (get_dt_field (E:=sample_engine) scenario_column "hour")
         = inr out
         ∧ len out = 3%nat ∧ null_count out = 1.
Proof.
  eexists. split; [reflexivity|].
  eapply (get_dt_field_shape (E:=sample_engine) scenario_column "hour");
    reflexivity.
Defined.

Lemma accessors_return_witness :
  Forall (λ accessor : Column → M Column,
            ∃ out, result (accessor scenario_column) = inr out
                   ∧ mask out = Some [true; false; true]
                   ∧ col_dtype out = int16)
    [@year sample_engine; @month sample_engine; @day sample_engine;
     @hour sample_engine; @minute sample_engine; @second sample_engine].
Proof.
  apply (accessors_return (E:=sample_engine) scenario_column).
  - exact sample_engine_extracts.
  - reflexivity.
Defined.

Lemma compare_with_scalar_witness :
  ∃ out, result (rhs ← normalize_binop_value scenario_column
                         (PyDatetime 1577836800000000);
                 unordered_compare (E:=sample_engine) scenario_column "eq"
                   rhs) = inr out
         ∧ col_dtype out = bool_ ∧ len out = 3%nat.
Proof.
  eexists. split; [reflexivity|].
  destruct (compare_with_scalar (E:=sample_engine) scenario_column
              (PyDatetime 1577836800000000) "eq"
              (mkColumn (mkBuffer [1; 0; 0] bool_)
                 (Some [true; false; true]) 1 bool_))
    as (Hd & Hl & _); [reflexivity | reflexivity |].
  split; [exact Hd | exact Hl].
Defined.

(** ** Sorting through a permutation *)

Lemma gather_seqZ (d : list Z) :
  gather d (seqZ 0 (Z.of_nat (length d))) = d.
Proof.
  unfold gather. apply list_eq. intros i.
  rewrite list_lookup_fmap.
  destruct (d !! i) as [x|] eqn:Hx.
  - pose proof (lookup_lt_Some _ _ _ Hx) as Hlt.
    rewrite (lookup_seqZ_lt _ _ i) by lia. simpl.
    replace (Z.to_nat (0 + Z.of_nat i)) with i by lia.
    by rewrite Hx.
  - pose proof (lookup_ge_None_1 _ _ Hx) as Hge.
    rewrite lookup_seqZ_ge by lia. done.
Qed.

Lemma mask_take_seqZ (m : Mask) :
  mask_take m (seqZ 0 (Z.of_nat (length m))) = m.
Proof.
  unfold mask_take. apply list_eq. intros i.
  rewrite list_lookup_fmap.
  destruct (m !! i) as [x|] eqn:Hx.
  - pose proof (lookup_lt_Some _ _ _ Hx) as Hlt.
    rewrite (lookup_seqZ_lt _ _ i) by lia. simpl.
    replace (Z.to_nat (0 + Z.of_nat i)) with i by lia.
    by rewrite Hx.
  - pose proof (lookup_ge_None_1 _ _ Hx) as Hge.
    rewrite lookup_seqZ_ge by lia. done.
Qed.

Lemma count_unset_Permutation (m1 m2 : Mask) :
  m1 ≡ₚ m2 → count_unset m1 = count_unset m2.
Proof.
  induction 1 as [|b m1 m2 _ IH|b1 b2 m|m1 m2 m3 _ IH1 _ IH2];
    simpl count_unset; lia.
Qed.

Section SortingPermutation.

Context {E : ComputeEngine}.

(** X10.  When the engine's index column is well formed and its indices
    are a permutation of the positions of the column, [sort_by_values]
    returns; the keys are a rearrangement of the column's data, their mask
    the same rearrangement of its mask, and the null count is kept. *)
Theorem sort_by_values_permutes (self : Column) (ascending : bool)
    (na_position : string) (sort_inds : Column) :
  valid_column self → valid_column sort_inds →
  get_sorted_inds self ascending na_position = inr sort_inds →
  mem (data sort_inds) ≡ₚ seqZ 0 (Z.of_nat (len self)) →
  ∃ keys inds,
    result (sort_by_values self ascending na_position) = inr (keys, inds)
    ∧ mem (data keys) ≡ₚ mem (data self)
    ∧ (∀ m, mask self = Some m → ∃ km, mask keys = Some km ∧ km ≡ₚ m)
    ∧ (mask self = None → mask keys = None)
    ∧ null_count keys = null_count self
    ∧ mem (data inds) = mem (data sort_inds).
Proof.
  intros Hv Hvi Heng Hperm.
  assert (∀ m, mask self = Some m →
            mask_take m (mem (data sort_inds)) ≡ₚ m) as Hmask.
  { intros m Hm.
    transitivity (mask_take m (seqZ 0 (Z.of_nat (len self)))).
    - unfold mask_take. by apply fmap_Permutation.
    - rewrite <- (valid_column_mask_length self m Hv Hm).
      by rewrite mask_take_seqZ. }
  destruct (sort_by_values_returns self ascending na_position sort_inds)
    as (keys & inds & Hres); try done.
  { intros m Hm. rewrite (count_unset_Permutation _ _ (Hmask m Hm)).
    rewrite (valid_column_null_count self Hv), Hm. done. }
  exists keys, inds. split; [done|].
  apply sort_by_values_inv in Hres
    as (si & Hsi & Hid & _ & Hkd & Hkm & Hkn & _ & _).
  rewrite Heng in Hsi. injection Hsi as <-.
  rewrite Hkd, Hkm, Hid. simpl.
  split; [|split; [|split; [|done]]].
  - transitivity (gather (mem (data self)) (seqZ 0 (Z.of_nat (len self)))).
    + unfold gather. by apply fmap_Permutation.
    + unfold len. by rewrite gather_seqZ.
  - intros m Hm. rewrite Hm. simpl. eauto.
  - by intros ->.
Qed.

(** X11.  When the engine's [get_sorted_inds] raises, [sort_by_values]
    raises the same error and allocates nothing; when it returns, the keys
    have one entry for each index, the type of the column, and a mask
    exactly when the column has one. *)
Theorem sort_by_values_shape (self : Column) (ascending : bool)
    (na_position : string) :
  (∀ e, get_sorted_inds self ascending na_position = inl e →
        sort_by_values self ascending na_position
        = ([EngineCall "get_sorted_inds" na_position], inl e))
  ∧ (∀ keys inds,
       result (sort_by_values self ascending na_position)
       = inr (keys, inds) →
       len keys = len inds
       ∧ col_dtype keys = col_dtype self
       ∧ has_null_mask keys = has_null_mask self
       ∧ col_dtype inds = buf_dtype (data inds)).
Proof.
  split.
  - intros e He. unfold sort_by_values. rewrite He. reflexivity.
  - intros keys inds Hres.
    pose proof Hres as Hinv.
    apply sort_by_values_inv in Hinv
      as (si & _ & Hid & _ & Hkd & Hkm & _ & Hkt & _).
    unfold len, has_null_mask. rewrite Hkd, Hkm, Hid. simpl.
    split; [unfold gather; by rewrite length_fmap|].
    split; [done|]. split; [by destruct (mask self)|].
    unfold sort_by_values in Hres.
    apply result_bind_inv in Hres as (si' & _ & Hres).
    apply result_bind_inv in Hres as ([] & _ & Hres).
    apply result_bind_inv in Hres as (ck & _ & Hres).
    apply result_bind_inv in Hres as (ci & Hci & Hres).
    injection Hres as _ <-.
    apply Column_init_inv in Hci as (Hd & _ & Ht & _).
    simpl in Hd, Ht. rewrite Ht. congruence.
Qed.

End SortingPermutation.

Lemma sort_by_values_permutes_witness :
  ∃ keys inds,
    result (sort_by_values (E:=sample_engine) scenario_column true "last")
    = inr (keys, inds)
    ∧ mem (data keys) ≡ₚ [1577836800000; 0; 1560556800000]
    ∧ null_count keys = 1.
Proof.
  destruct (sort_by_values_permutes (E:=sample_engine) scenario_column
              true "last"
              (mkColumn (mkBuffer [2; 0; 1] int32) None 0 int32))
    as (keys & inds & Hres & Hp & _ & _ & Hn & _).
  - reflexivity.
  - reflexivity.
  - reflexivity.
  - apply (Permutation_cons_append [0; 1] 2).
  - exists keys, inds. split; [exact Hres|]. split; [exact Hp | exact Hn].
Defined.

Lemma sort_by_values_shape_witness :
  ∃ keys inds,
    result (sort_by_values (E:=sample_engine) scenario_column false "first")
    = inr (keys, inds)
    ∧ len keys = len inds ∧ has_null_mask keys = true
  ∧ sort_by_values (E:=sample_engine) scenario_column true "middle"
    = ([EngineCall "get_sorted_inds" "middle"],
       inl (ValueError "invalid na_position")).
Proof.
  destruct (sort_by_values_shape (E:=sample_engine) scenario_column false
              "first") as [_ Hshape].
  destruct (sort_by_values_shape (E:=sample_engine) scenario_column true
              "middle") as [Herr _].
  eexists _, _. split; [reflexivity|].
  destruct (Hshape _ _ eq_refl) as (Hl & _ & Hm & _).
  split; [exact Hl|]. split; [exact Hm|].
  apply Herr. reflexivity.
Defined.

Lemma binop_shape_witness :
  binop (E:=sample_engine) scenario_column scenario_column "xor" bool_
  = ([Allocate 3 bool_; EngineCall "apply_op" "xor"], inl (KeyError "xor"))
  ∧ ∃ out, result (binop (E:=sample_engine) scenario_column
                     scenario_column "ge" bool_) = inr out
           ∧ len out = 3%nat.
Proof.
  split.
  - apply (binop_shape (E:=sample_engine) scenario_column scenario_column
             "xor" bool_). reflexivity.
  - eexists. split; [reflexivity|].
    eapply (binop_shape (E:=sample_engine) scenario_column scenario_column
              "ge" bool_). reflexivity.
Defined.

(** ** Arrow export after other operations *)

Lemma wrap64_int64s (l : list Z) :
  Forall is_int64 l → wrap64 <$> l = l.
Proof.
  induction 1 as [|v l Hv _ IH]; [done|].
  cbn [fmap list_fmap]. fold (wrap64 <$> l).
  by rewrite IH, wrap64_small.
Qed.




Section FillThenExport.

Context {E : ComputeEngine}.


End FillThenExport.


(** ** Construction from a host array *)

(** X14.  [from_numpy] always returns: its assertion on the item size
    cannot fail.  The column has the converted elements as its ticks, the
    millisecond timestamp type, no mask and a null count of 0: an element
    that is NaT is kept as a tick, not marked as a null. *)
Theorem from_numpy_no_nulls (array : np_array) :
  ∃ c, from_numpy array
       = ([Allocate (length (array_astype_ms array)) datetime64_ms], inr c)
       ∧ valid_column c
       ∧ mem (data c) = array_astype_ms array
       ∧ mask c = None
       ∧ null_count c = 0
       ∧ col_dtype c = datetime64_ms
       ∧ ∀ i, mem (data c) !! i = Some NaT → is_valid_at c i.
Proof.
  eexists; split; [reflexivity|]. simpl.
  repeat split; try done.
  intros i Hi. unfold is_valid_at, len; simpl.
  by apply lookup_lt_Some in Hi.
Qed.

(** X15.  A host array of 64-bit ticks, built into a column by
    [from_numpy] and exported by [to_arrow], comes out unchanged: there is
    no validity bitmap, the null count is 0, and the data bytes read back
    as the ticks of the array. *)
Theorem from_numpy_then_to_arrow (ticks : list Z) :
  Forall is_int64 ticks →
  ∃ c arr,
    result (from_numpy (DatetimeArray unit_ms ticks)) = inr c
    ∧ to_arrow c = ([], inr arr)
    ∧ pa_buffers arr !! 0%nat = Some None
    ∧ (∃ bs, pa_buffers arr !! 1%nat = Some (Some (pa_bytes bs))
             ∧ decode_int64s bs = ticks)
    ∧ pa_null_count arr = 0
    ∧ pa_length arr = length ticks
    ∧ pa_ty arr = pa_timestamp_ms.
Proof.
  intros Hticks.
  assert (astype_ms unit_ms <$> ticks = ticks) as Hms.
  { induction Hticks as [|v l Hv _ IH]; [done|].
    cbn [fmap list_fmap]. fold (astype_ms unit_ms <$> l). rewrite IH.
    f_equal. destruct (decide (v = NaT)) as [->|Hn];
      [apply astype_ms_NaT|].
    rewrite astype_ms_exact; cbn [ms_per_tick fst snd];
      rewrite ?Z.mul_1_r, ?Z.div_1_r; done. }
  eexists _, _. split; [reflexivity|].
  split; [reflexivity|]. simpl. rewrite Hms.
  split; [done|]. split; [|done].
  eexists; split; [reflexivity|].
  rewrite decode_view_int64_bytes. by apply wrap64_int64s.
Qed.

Lemma from_numpy_then_to_arrow_witness :
  ∃ c arr,
    result (from_numpy (DatetimeArray unit_ms [1577836800000; -1])) = inr c
    ∧ to_arrow c = ([], inr arr)
    ∧ pa_null_count arr = 0.
Proof.
  destruct (from_numpy_then_to_arrow [1577836800000; -1])
    as (c & arr & Hc & Ha & _ & _ & Hn & _).
  - repeat constructor; unfold is_int64;
      change (2 ^ 63) with 9223372036854775808; lia.
  - exists c, arr. split; [exact Hc|]. split; [exact Ha | exact Hn].
Defined.

Lemma from_numpy_no_nulls_witness :
  ∃ c, result (from_numpy (DatetimeArray unit_s [NaT; 1])) = inr c
       ∧ mem (data c) = [NaT; 1000]
       ∧ is_valid_at c 0.
Proof.
  destruct (from_numpy_no_nulls (DatetimeArray unit_s [NaT; 1]))
    as (c & Hc & _ & Hd & _ & _ & _ & Hnat).
  exists c. split; [by rewrite Hc|]. split; [exact Hd|].
  apply Hnat. rewrite Hd. reflexivity.
Defined.

(** ** Deserialization of an incomplete header *)

Section IncompleteHeader.

Context {Ser : Serializer}.

(** X16.  [deserialize] looks up the null count and then the dtype in the
    header: when the frames hold a data buffer and possibly a mask, a
    header with no [null_count] entry raises a key error for
    [null_count], and a header with a null count and no [dtype] entry a key
    error for [dtype].  The header the base class produces alone is of the
    second kind. *)
Theorem deserialize_missing_key (header : gmap string hval)
    (d : Buffer) (m : option Mask) :
  let frames :=
    FrameData d :: match m with Some b => [FrameMask b] | None => [] end in
  (header !! "null_count" = None →
   deserialize header frames = ([], inl (KeyError "null_count")))
  ∧ (∀ nc, header !! "null_count" = Some (HInt nc) →
           header !! "dtype" = None →
           deserialize header frames = ([], inl (KeyError "dtype")))
  ∧ ∀ self, result (hf ← base_serialize self; deserialize hf.1 hf.2)
            = inl (KeyError "dtype").
Proof.
  intros frames.
  assert (∀ (h : gmap string hval) d' m',
            _deserialize_data_mask h
              (FrameData d'
                 :: match m' with Some b => [FrameMask b] | None => [] end)
            = ([], inr (d', m'))) as Hdm
    by (intros h d' [b|]; reflexivity).
  split; [|split].
  - intros Hnc. unfold deserialize, frames.
    rewrite (bind_inr _ _ (d, m)) by (by rewrite Hdm). rewrite Hdm.
    unfold header_int. rewrite Hnc. reflexivity.
  - intros nc Hnc Hdt. unfold deserialize, frames.
    rewrite (bind_inr _ _ (d, m)) by (by rewrite Hdm). rewrite Hdm.
    unfold header_int, header_serialized. rewrite Hnc, Hdt. reflexivity.
  - intros self. unfold base_serialize.
    erewrite bind_inr by reflexivity. cbn [trace result fst snd app].
    unfold deserialize.
    rewrite (bind_inr _ _ (data self, mask self)) by (by rewrite Hdm).
    rewrite Hdm. unfold header_int, header_serialized.
    rewrite lookup_singleton_eq.
    rewrite lookup_singleton_ne by done. reflexivity.
Qed.

End IncompleteHeader.

Lemma deserialize_missing_key_witness :
  deserialize (Ser:=sample_serializer) ∅
    [FrameData (mkBuffer [1; 2] datetime64_ms)]
  = ([], inl (KeyError "null_count"))
  ∧ deserialize (Ser:=sample_serializer) {[ "null_count" := HInt 0 ]}
      [FrameData (mkBuffer [1; 2] datetime64_ms); FrameMask [true; true]]
    = ([], inl (KeyError "dtype")).
Proof.
  split.
  - apply (deserialize_missing_key (Ser:=sample_serializer) ∅
             (mkBuffer [1; 2] datetime64_ms) None).
    apply lookup_empty.
  - destruct (deserialize_missing_key (Ser:=sample_serializer)
                {[ "null_count" := HInt 0 ]}
                (mkBuffer [1; 2] datetime64_ms) (Some [true; true]))
      as (_ & Hdt & _).
    apply (Hdt 0).
    + apply lookup_singleton_eq.
    + by apply lookup_singleton_ne.
Defined.
